(** * 3D-Annotator: surface-anchored annotations

    A shallow embedding of the annotation subsystem of the 3D-Annotator
    React/three.js application, and the properties of its event handlers.

    Two versions of the application live in the repository:
    - the current application (pending-pick panel, text and image
      annotations, deletion), embedded in the modules [Annotation] and [App];
    - the earlier copy kept under [portfolio/src/App.tsx], embedded in the
      module [Portfolio].

    JavaScript numbers are IEEE-754 binary64 values: they are modelled by
    Rocq's primitive floats, so that [+] and [*] below are the very
    operations the handlers perform.  React state and refs are modelled by
    explicit state passing: a handler is a function from the state it closes
    over to the state after it has run. *)

From Stdlib Require Import ZArith Floats.PrimFloat Floats.FloatOps Floats.SpecFloat.
From stdpp Require Import base option list gmap strings.

Set Warnings "-inexact-float".

(** ** Numbers and typed arrays *)

Abbreviation number := float (only parsing).

(** [Math.fround]: the binary32 value nearest to a binary64 number (ties to
    even, overflow to an infinity), read back as a binary64 number.  This is
    the conversion a [Float32Array] applies to every value stored in it. *)
Definition fround (v : number) : number :=
  match Prim2SF v with
  | S754_finite s m e =>
      SF2Prim (binary_normalize 24 128 (cond_Zopp s (Zpos m)) e s)
  | _ => v
  end.

Definition Float32Array := list number.

(** [new Float32Array(n)]: [n] zeros. *)
Definition Float32Array_new (n : nat) : Float32Array := replicate n 0%float.

(** [a[i] = v] on a [Float32Array]: the value is converted to binary32; a
    write past the end is ignored. *)
Definition Float32Array_store (i : nat) (v : number) (a : Float32Array)
  : Float32Array :=
  <[i := fround v]> a.

(** [arr[i]] on a [number[]]: [undefined] past the end, which arithmetic
    turns into [NaN]. *)
Definition index_number (l : list number) (i : nat) : number :=
  default nan (l !! i).

(** ** The part of three.js the handlers use *)

Module THREE.

Record Vector3 := mkVector3 { x : number; y : number; z : number }.

(** A pointer position; [u] and [v] are the fields [x] and [y] of a
    [Vector2]. *)
Record Vector2 := mkVector2 { u : number; v : number }.

(** [a.clone()] *)
Definition clone (a : Vector3) : Vector3 := mkVector3 (x a) (y a) (z a).

(** [a.copy(b)]: overwrites the three coordinates of [a], returns [a]. *)
Definition copy (a b : Vector3) : Vector3 := mkVector3 (x b) (y b) (z b).

(** [a.add(b)]: componentwise [+=], returns [a]. *)
Definition add (a b : Vector3) : Vector3 :=
  mkVector3 (x a + x b)%float (y a + y b)%float (z a + z b)%float.

(** [a.multiplyScalar(s)]: componentwise [*=], returns [a]. *)
Definition multiplyScalar (a : Vector3) (s : number) : Vector3 :=
  mkVector3 (x a * s)%float (y a * s)%float (z a * s)%float.

(** The coordinates as the array literal [[a.x, a.y, a.z]]. *)
Definition toArray (a : Vector3) : list number := [x a; y a; z a].

Record Ray := mkRay { origin : Vector3; direction : Vector3 }.

(** One entry of the result of a raycast, with the two fields the handlers
    read. *)
Record Intersection := mkIntersection { point : Vector3; normal : Vector3 }.

(** A camera is used only through [raycaster.setFromCamera(pointer, camera)],
    which turns a pointer position into a ray. *)
Record Camera := mkCamera { unproject : Vector2 -> Ray }.

(** The model group is used only through
    [raycaster.intersectObject(group, true)]: the intersections of a ray
    with the meshes of the group, nearest first. *)
Record Group := mkGroup { raycast : Ray -> list Intersection }.

(** A scene node: its local position, and the world transform of its
    ancestors, which maps the local position to the world position. *)
Record Object3D := mkObject3D {
  position : Vector3;
  parentMatrixWorld : Vector3 -> Vector3
}.

(** [o.getWorldPosition(target)] *)
Definition getWorldPosition (o : Object3D) : Vector3 :=
  parentMatrixWorld o (position o).

Definition set_position (p : Vector3) (o : Object3D) : Object3D :=
  mkObject3D p (parentMatrixWorld o).

(** The connector [<line>]; its position attribute is bound by the JSX to
    the component's own [positions] buffer ([array={positions.current}]), so
    the line only carries the upload flag of that attribute. *)
Record Line := mkLine { needsUpdate : bool }.

(** What [useThree()] hands to a component. *)
Record RootState := mkRootState {
  raycaster : Ray;
  camera : Camera;
  pointer : Vector2
}.

(** [raycaster.setFromCamera(pointer, camera)] *)
Definition setFromCamera (st : RootState) : RootState :=
  mkRootState (unproject (camera st) (pointer st)) (camera st) (pointer st).

(** [raycaster.intersectObject(group, true)] *)
Definition intersectObject (st : RootState) (g : Group) : list Intersection :=
  raycast g (raycaster st).

End THREE.

Import THREE.

(** ** React refs *)

(** The [RefObject<THREE.Group>] of a mounted model is shared by every
    annotation bound to it; a ref is identified by an address, and the store
    maps it to its [current] value, absent when [current] is [null]. *)
Definition RefId := nat.

(** The value of a [contentRef]: a string, or [null]. *)
Inductive Content :=
| null
| str (s : string).

(** JavaScript truthiness of an optional string argument: [undefined] and the
    empty string are falsy. *)
Definition truthy (o : option string) : bool :=
  match o with
  | Some s => match s with EmptyString => false | String _ _ => true end
  | None => false
  end.

(** ** The [Annotation] component of the current application *)

Module Annotation.

(** The props of one annotation: the refs of its element of
    [annotationsRef.current] and the [isImage] flag.  The refs are the very
    objects held by the store, so a write to [positionRef.current] or
    [contentRef.current] is a write to the stored record. *)
Record Props := mkProps {
  positionRef : list number;
  contentRef : Content;
  modelRef : RefId;
  isImage : bool
}.

(** The hooks of one mounted component: [useState] cells and [useRef]
    cells.  A ref to a scene node is [None] until the node is mounted. *)
Record Hooks := mkHooks {
  isEditing : bool;
  content : Content;
  pivotRef : option Object3D;
  contentMeshRef : option Object3D;
  lineRef : option Line;
  contentPositionRef : list number;
  positions : Float32Array
}.

(** The initial values of the hooks, on the first render. *)
Definition init (p : Props) : Hooks :=
  mkHooks false (contentRef p) None None None
    [ (index_number (positionRef p) 0 + 5)%float;
      index_number (positionRef p) 1;
      (index_number (positionRef p) 2 + 5)%float ]
    (Float32Array_new 6).

Definition set_pivotRef (o : option Object3D) (h : Hooks) : Hooks :=
  mkHooks (isEditing h) (content h) o (contentMeshRef h) (lineRef h)
    (contentPositionRef h) (positions h).

Definition set_positionRef (l : list number) (p : Props) : Props :=
  mkProps l (contentRef p) (modelRef p) (isImage p).

Definition offsetDistance : number := 0.05%float.

(** [handlePivotDrag]: the [onDrag] callback of the anchor handle. *)
Definition handlePivotDrag (refs : gmap nat Group) (st : RootState)
    (p : Props) (h : Hooks) : RootState * Props * Hooks :=
  match pivotRef h, refs !! modelRef p with
  | Some pivot, Some model =>
      let st := setFromCamera st in
      let intersects := intersectObject st model in
      match intersects with
      | intersection :: _ =>
          let point := point intersection in
          let normal := normal intersection in
          let newPosition :=
            add (clone point) (multiplyScalar normal offsetDistance) in
          let pivot := set_position (copy (position pivot) newPosition) pivot in
          (st,
           set_positionRef [x newPosition; y newPosition; z newPosition] p,
           set_pivotRef (Some pivot) h)
      | [] => (st, p, h)
      end
  | _, _ => (st, p, h)
  end.

(** [handleContentDrag]: the [onDrag] callback of the content panel. *)
Definition handleContentDrag (h : Hooks) : Hooks :=
  match contentMeshRef h with
  | None => h
  | Some mesh =>
      let newPos := position mesh in
      mkHooks (isEditing h) (content h) (pivotRef h) (contentMeshRef h)
        (lineRef h) [x newPos; y newPos; z newPos] (positions h)
  end.

(** [handleTextChange] *)
Definition handleTextChange (value : string) (p : Props) (h : Hooks)
  : Props * Hooks :=
  (mkProps (positionRef p) (str value) (modelRef p) (isImage p),
   mkHooks (isEditing h) (str value) (pivotRef h) (contentMeshRef h)
     (lineRef h) (contentPositionRef h) (positions h)).

(** The [useFrame] callback: runs once per rendered frame. *)
Definition useFrame (h : Hooks) : Hooks :=
  match pivotRef h, contentMeshRef h, lineRef h with
  | Some pivot, Some contentMesh, Some line =>
      let pivotWorldPos := getWorldPosition pivot in
      let contentWorldPos := getWorldPosition contentMesh in
      let positions :=
        Float32Array_store 5 (z contentWorldPos)
          (Float32Array_store 4 (y contentWorldPos)
            (Float32Array_store 3 (x contentWorldPos)
              (Float32Array_store 2 (z pivotWorldPos)
                (Float32Array_store 1 (y pivotWorldPos)
                  (Float32Array_store 0 (x pivotWorldPos)
                    (positions h)))))) in
      (* [positionAttribute.array] is [positions.current] itself, so
         [positionAttribute.array.set(positions.current)] copies the buffer
         onto itself; [computeBoundingSphere()] refreshes culling data
         derived from the buffer, which no handler reads *)
      mkHooks (isEditing h) (content h) (pivotRef h) (contentMeshRef h)
        (Some (mkLine true)) (contentPositionRef h) positions
  | _, _, _ => h
  end.

(** The two endpoints of the connector, as the line's position attribute
    holds them. *)
Definition lineStart (h : Hooks) : list number := take 3 (positions h).
Definition lineEnd (h : Hooks) : list number := take 3 (drop 3 (positions h)).

End Annotation.

(** ** The [App] component of the current application *)

(** How a handler completes: normally, or by throwing a [TypeError] (a
    property access on [undefined]). *)
Inductive Completion (A : Type) :=
| Normal (a : A)
| TypeError.
Arguments Normal {A} a.
Arguments TypeError {A}.

(** [arr.splice(start, 1)]: a negative [start] counts from the end, a [start]
    past the end removes nothing. *)
Definition splice1 {A : Type} (start : Z) (arr : list A) : list A :=
  let len := Z.of_nat (length arr) in
  let actualStart :=
    if (start <? 0)%Z then Z.max (len + start) 0 else Z.min start len in
  delete (Z.to_nat actualStart) arr.

(** [arr[index]]: [undefined] unless [0 <= index < arr.length]. *)
Definition at_index {A : Type} (arr : list A) (index : Z) : option A :=
  if (index <? 0)%Z then None else arr !! Z.to_nat index.

Module App.

Import Annotation.

(** The state of the component: its [useState] cells and
    [annotationsRef.current], the Annotation Store. *)
Record State := mkState {
  modelUrlRef : option string;
  modelColor : string;
  annotationsRef : list Props;
  modelLoaded : bool;
  showSelectionPanel : bool;
  pendingPoint : option Vector3;
  pendingModelRef : option RefId;
  annotationCount : nat
}.

(** The state of the first render. *)
Definition init : State :=
  mkState None "cyan" [] false false None None 0.

(** The mount effect: [useEffect(() => {...}, [])]. *)
Definition mountEffect (s : State) : State :=
  mkState (Some "/tshirt.glb") (modelColor s) (annotationsRef s) true
    (showSelectionPanel s) (pendingPoint s) (pendingModelRef s)
    (annotationCount s).

Definition handleColorChange (value : string) (s : State) : State :=
  mkState (modelUrlRef s) value (annotationsRef s) (modelLoaded s)
    (showSelectionPanel s) (pendingPoint s) (pendingModelRef s)
    (annotationCount s).

(** [handleModelClick]: the double-click callback of the model. *)
Definition handleModelClick (point : Vector3) (modelRef : RefId) (s : State)
  : State :=
  mkState (modelUrlRef s) (modelColor s) (annotationsRef s) (modelLoaded s)
    true (Some point) (Some modelRef) (annotationCount s).

(** [handleTextSelection]: the [Add Text] button. *)
Definition handleTextSelection (s : State) : State :=
  match pendingPoint s, pendingModelRef s with
  | Some pendingPoint, Some pendingModelRef =>
      let annotations :=
        annotationsRef s ++
        [ mkProps [x pendingPoint; y pendingPoint; z pendingPoint]
            (str "Annotation") pendingModelRef false ] in
      mkState (modelUrlRef s) (modelColor s) annotations (modelLoaded s)
        false None None (length annotations)
  | _, _ => s
  end.

(** The [Cancel] button: [() => setShowSelectionPanel(false)]. *)
Definition cancelSelection (s : State) : State :=
  mkState (modelUrlRef s) (modelColor s) (annotationsRef s) (modelLoaded s)
    false (pendingPoint s) (pendingModelRef s) (annotationCount s).

(** [handleDelete] *)
Definition handleDelete (index : Z) (s : State) : State :=
  let annotations := splice1 index (annotationsRef s) in
  mkState (modelUrlRef s) (modelColor s) annotations (modelLoaded s)
    (showSelectionPanel s) (pendingPoint s) (pendingModelRef s)
    (length annotations).

(** [newContent || (isImage ? null : "Annotation")] *)
Definition contentOrDefault (isImage : bool) (newContent : option string)
  : Content :=
  match newContent with
  | Some c => if truthy newContent then str c
              else if isImage then null else str "Annotation"
  | None => if isImage then null else str "Annotation"
  end.

(** [handleTypeChange]; [newContent] is [None] when the optional argument is
    omitted or [undefined]. *)
Definition handleTypeChange (index : Z) (isImage : bool)
    (newContent : option string) (s : State) : Completion State :=
  match at_index (annotationsRef s) index with
  | None => TypeError
  | Some a =>
      let a := mkProps (positionRef a) (contentRef a) (modelRef a) isImage in
      let a :=
        mkProps (positionRef a) (contentOrDefault isImage newContent)
          (modelRef a) (Annotation.isImage a) in
      let annotations := <[Z.to_nat index := a]> (annotationsRef s) in
      Normal
        (mkState (modelUrlRef s) (modelColor s) annotations (modelLoaded s)
           (showSelectionPanel s) (pendingPoint s) (pendingModelRef s)
           (length annotations))
  end.

Section Files.

(** Files picked by the user, and [URL.createObjectURL]. *)
Variable File : Type.
Variable createObjectURL : File -> string.

(** [handleFileUpload]; [file] is [event.target.files?.[0]]. *)
Definition handleFileUpload (file : option File) (s : State) : State :=
  match file with
  | Some file =>
      mkState (Some (createObjectURL file)) (modelColor s)
        (annotationsRef s) true (showSelectionPanel s) (pendingPoint s)
        (pendingModelRef s) (annotationCount s)
  | None => s
  end.

(** [handleImageUpload]: the change event of the [Add Image] file input;
    [file] is [event.target.files?.[0]], absent when the file dialog was
    dismissed without a choice. *)
Definition handleImageUpload (file : option File) (s : State) : State :=
  match file, pendingModelRef s, pendingPoint s with
  | Some file, Some pendingModelRef, Some pendingPoint =>
      let url := createObjectURL file in
      let annotations :=
        annotationsRef s ++
        [ mkProps [x pendingPoint; y pendingPoint; z pendingPoint]
            (str url) pendingModelRef true ] in
      mkState (modelUrlRef s) (modelColor s) annotations (modelLoaded s)
        false None None (length annotations)
  | _, _, _ => s
  end.

End Files.

End App.

(** ** The earlier copy of the application ([portfolio/src/App.tsx]) *)

Module Portfolio.

Record Props := mkProps {
  positionRef : list number;
  textRef : string;
  modelRef : RefId
}.

Record Hooks := mkHooks {
  isEditing : bool;
  text : string;
  pivotRef : option Object3D;
  textMeshRef : option Object3D;
  lineRef : option Line;
  positions : Float32Array
}.

Definition init (p : Props) : Hooks :=
  mkHooks false (textRef p) None None None (Float32Array_new 6).

(** [handleDrag]: the [onDrag] callback of the anchor handle. *)
Definition handleDrag (refs : gmap nat Group) (st : RootState)
    (p : Props) (h : Hooks) : RootState * Props * Hooks :=
  match pivotRef h, refs !! modelRef p with
  | Some pivot, Some model =>
      let st := setFromCamera st in
      let intersects := intersectObject st model in
      match intersects with
      | intersection :: _ =>
          let point := point intersection in
          let pivot :=
            set_position
              (add (copy (position pivot) point)
                 (multiplyScalar (normal intersection) 0.01%float))
              pivot in
          (st,
           mkProps [x point; y point; z point] (textRef p) (modelRef p),
           mkHooks (isEditing h) (text h) (Some pivot) (textMeshRef h)
             (lineRef h) (positions h))
      | [] => (st, p, h)
      end
  | _, _ => (st, p, h)
  end.

(** The [useFrame] callback. *)
Definition useFrame (h : Hooks) : Hooks :=
  match pivotRef h, textMeshRef h, lineRef h with
  | Some pivot, Some textMesh, Some line =>
      let pivotWorldPos := getWorldPosition pivot in
      let textWorldPos := getWorldPosition textMesh in
      let positions :=
        Float32Array_store 5 (z textWorldPos)
          (Float32Array_store 4 (y textWorldPos)
            (Float32Array_store 3 (x textWorldPos)
              (Float32Array_store 2 (z pivotWorldPos)
                (Float32Array_store 1 (y pivotWorldPos)
                  (Float32Array_store 0 (x pivotWorldPos)
                    (positions h)))))) in
      mkHooks (isEditing h) (text h) (pivotRef h) (textMeshRef h)
        (Some (mkLine true)) positions
  | _, _, _ => h
  end.

(** The state of this [App]: there is no pending pick, a double click
    appends at once. *)
Record State := mkState {
  modelUrlRef : option string;
  modelColor : string;
  annotationsRef : list Props;
  modelLoaded : bool;
  annotationCount : nat
}.

Definition handleModelClick (point : Vector3) (modelRef : RefId) (s : State)
  : State :=
  let annotations :=
    annotationsRef s ++
    [ mkProps [x point; y point; z point] "Annotation" modelRef ] in
  mkState (modelUrlRef s) (modelColor s) annotations (modelLoaded s)
    (length annotations).

End Portfolio.

(** ** Drag events that miss *)

(** The ray of a drag event misses the model bound to the ref [r]: the ref is
    stale ([current] is [null]), or the raycast returns no intersection. *)
Definition missed (refs : gmap nat Group) (st : RootState) (r : RefId) : Prop :=
  match refs !! r with
  | None => True
  | Some model => intersectObject (setFromCamera st) model = []
  end.

(** ** Concrete scenes, for evaluating the handlers *)

Module Scene.

Definition v3 (a b c : number) : Vector3 := mkVector3 a b c.

(** A camera looking down the z axis: the ray through a pointer position
    starts 20 units in front of the origin. *)
Definition ortho : Camera :=
  mkCamera (fun p => mkRay (v3 (u p) (v p) 20) (v3 0 0 (-1))).

(** The plane [z = 3], facing the camera: every ray of [ortho] hits it. *)
Definition wall : Group :=
  mkGroup (fun r =>
    [ mkIntersection (v3 (x (origin r)) (y (origin r)) 3) (v3 0 0 1) ]).

(** A model that no ray hits. *)
Definition nothing : Group := mkGroup (fun _ => []).

Definition root (px py : number) : RootState :=
  mkRootState (mkRay (v3 0 0 0) (v3 0 0 0)) ortho (mkVector2 px py).

(** A node at [p] under untransformed ancestors. *)
Definition node (p : Vector3) : Object3D := mkObject3D p (fun q => q).

End Scene.

(** ** The content panel of an [Annotation] *)

Module AnnotationPanel.

Import Annotation.

(** The three faces of the content panel, as the JSX selects them. *)
Inductive Panel :=
| ImagePanel (src : string)
| InputPanel (value : Content)
| TextPanel (label : string).

(** [content || fallback]: [null] and the empty string give the fallback. *)
Definition orElse (c : Content) (fallback : string) : string :=
  match c with
  | str (String a s) => String a s
  | _ => fallback
  end.

(** [isImage ? <Image .../> : isEditing ? <Input .../> : <Text .../>] *)
Definition render (p : Props) (h : Hooks) : Panel :=
  if isImage p then
    ImagePanel (orElse (content h) "https://via.placeholder.com/150")
  else if isEditing h then InputPanel (content h)
  else TextPanel (orElse (content h) "Annotation").

(** The clickable labels rendered beside each face. *)
Inductive Control := Edit | Close | Delete.

Definition controls (panel : Panel) : list Control :=
  match panel with
  | ImagePanel _ => [Delete]
  | InputPanel _ => [Close]
  | TextPanel _ => [Edit; Delete]
  end.

(** [dragConfig={{ enabled: !isEditing }}] of the content panel. *)
Definition contentDragEnabled (h : Hooks) : bool := negb (isEditing h).

(** [setIsEditing], the [onClick] of [Edit] (with [true]) and of [Close]
    (with [false]). *)
Definition setIsEditing (b : bool) (h : Hooks) : Hooks :=
  mkHooks b (content h) (pivotRef h) (contentMeshRef h) (lineRef h)
    (contentPositionRef h) (positions h).

(** The [onValueChange] of the [<Input>]. *)
Definition onValueChange (value : string) (p : Props) (h : Hooks)
  : Props * Hooks :=
  (mkProps (positionRef p) (str value) (modelRef p) (isImage p),
   mkHooks (isEditing h) (str value) (pivotRef h) (contentMeshRef h)
     (lineRef h) (contentPositionRef h) (positions h)).

Section Files.

Variable File : Type.
Variable createObjectURL : File -> string.

(** [handleImageUpload] of the component; [file] is
    [event.target.files?.[0]].  The third component is the call of the
    [onTypeChange] prop it makes, if any. *)
Definition handleImageUpload (file : option File) (p : Props) (h : Hooks)
  : Props * Hooks * option (bool * option string) :=
  match file with
  | Some file =>
      let url := createObjectURL file in
      (mkProps (positionRef p) (str url) (modelRef p) (isImage p),
       mkHooks false (str url) (pivotRef h) (contentMeshRef h) (lineRef h)
         (contentPositionRef h) (positions h),
       Some (true, Some url))
  | None => (p, h, None)
  end.

End Files.

End AnnotationPanel.

(** ** The [Model] component *)

Module Model.

(** A material; [color] is absent for a material without a [color]
    property. *)
Record Material := mkMaterial { color : option string }.

(** A node of the loaded scene: a mesh with its [material] slot, or any other
    kind of object, and its children. *)
Inductive Kind :=
| Mesh (material : option Material)
| Other.

#[warnings="-register-all"]
Inductive Node := mkNode (kind : Kind) (children : list Node).

(** The callback of [traverse]: [material.color.set(color)] on a mesh whose
    material has a colour. *)
Definition paint (c : string) (k : Kind) : Kind :=
  match k with
  | Mesh (Some material) =>
      match color material with
      | Some _ => Mesh (Some (mkMaterial (Some c)))
      | None => k
      end
  | _ => k
  end.

(** [node.traverse(callback)]: the node, then its descendants. *)
Fixpoint traverse (f : Kind -> Kind) (n : Node) : Node :=
  match n with
  | mkNode k children => mkNode (f k) (map (traverse f) children)
  end.

(** [groupRef.current]: the [isModel] flag of its [userData], and the node of
    the group, with the loaded scene below it. *)
Record ModelGroup := mkModelGroup { isModel : bool; scene : Node }.

(** The effect [useEffect(() => {...}, [color])]. *)
Definition colorEffect (c : string) (groupRef : option ModelGroup)
  : option ModelGroup :=
  match groupRef with
  | Some g => Some (mkModelGroup true (traverse (paint c) (scene g)))
  | None => None
  end.



End Model.

(** ** The events of the [App] component *)

Module Session.

Section Files.

Variable File : Type.
Variable createObjectURL : File -> string.

(** The DOM and scene events the JSX of [App] binds to a handler. *)
Inductive Event :=
| FileChange (file : option File)
| ColorChange (value : string)
| ModelDoubleClick (point : Vector3) (modelRef : RefId)
| AddText
| AddImage (file : option File)
| Cancel
| Delete (index : Z)
| TypeChange (index : Z) (isImage : bool) (newContent : option string).

(** The handler bound to an event; a handler that throws leaves the state
    as it was ([handleTypeChange] throws before its first write). *)
Definition dispatch (e : Event) (s : App.State) : App.State :=
  match e with
  | FileChange file => App.handleFileUpload File createObjectURL file s
  | ColorChange value => App.handleColorChange value s
  | ModelDoubleClick point modelRef => App.handleModelClick point modelRef s
  | AddText => App.handleTextSelection s
  | AddImage file => App.handleImageUpload File createObjectURL file s
  | Cancel => App.cancelSelection s
  | Delete index => App.handleDelete index s
  | TypeChange index isImage newContent =>
      match App.handleTypeChange index isImage newContent s with
      | Normal s' => s'
      | TypeError => s
      end
  end.

(** The events that can create an annotation. *)
Definition creates (e : Event) : bool :=
  match e with
  | AddText | AddImage (Some _) => true
  | _ => false
  end.

(** The state after mounting and a sequence of events. *)
Definition run (events : list Event) : App.State :=
  foldl (fun s e => dispatch e s) (App.mountEffect App.init) events.

End Files.

(** What every state of a session satisfies. *)
Record Invariant (s : App.State) : Prop := mkInvariant {
  count_is_length : App.annotationCount s = length (App.annotationsRef s);
  panel_has_pick :
    App.showSelectionPanel s = true ->
    is_Some (App.pendingPoint s) /\ is_Some (App.pendingModelRef s);
  pick_is_paired :
    App.pendingPoint s = None <-> App.pendingModelRef s = None;
  model_is_shown :
    App.modelLoaded s = true /\ is_Some (App.modelUrlRef s);
  anchors_are_triples :
    Forall (fun a => length (Annotation.positionRef a) = 3)
      (App.annotationsRef s)
}.

End Session.

(** Running a handler after one that may have thrown. *)
Definition and_then {A B : Type} (c : Completion A) (k : A -> Completion B)
  : Completion B :=
  match c with
  | Normal a => k a
  | TypeError => TypeError
  end.

(** ** Agreement of the handle and the stored anchor *)

(** The anchor handle, once mounted, sits where the stored anchor says. *)
Definition anchored (p : Annotation.Props) (h : Annotation.Hooks) : Prop :=
  match Annotation.pivotRef h with
  | Some pivot => Annotation.positionRef p = toArray (position pivot)
  | None => True
  end.

(** The clicks of a session of the earlier copy, replayed in order. *)
Definition portfolio_clicks (clicks : list (Vector3 * RefId))
    (s : Portfolio.State) : Portfolio.State :=
  foldl (fun s c => Portfolio.handleModelClick c.1 c.2 s) s clicks.

(** * Properties *)

Import Scene.

(** ** Auxiliary facts *)

(** Two arrays that differ at index [i] are different. *)
Lemma numbers_neq_at (i : nat) (l1 l2 : list number) :
  PrimFloat.eqb (index_number l1 i) (index_number l2 i) = false ->
  PrimFloat.eqb (index_number l2 i) (index_number l2 i) = true ->
  l1 <> l2.
Proof. intros E R ->. congruence. Qed.


Lemma copy_r (a b : Vector3) : copy a b = b.
Proof. by destruct b. Qed.

Lemma at_index_nat {A : Type} (arr : list A) (i : nat) :
  at_index arr (Z.of_nat i) = arr !! i.
Proof.
  unfold at_index. destruct (Z.ltb_spec (Z.of_nat i) 0); [lia|].
  by rewrite Nat2Z.id.
Qed.

Lemma at_index_Some {A : Type} (arr : list A) (index : Z) (a : A) :
  at_index arr index = Some a ->
  (0 <= index)%Z /\ Z.to_nat index < length arr /\ arr !! Z.to_nat index = Some a.
Proof.
  unfold at_index. destruct (Z.ltb_spec index 0); [done|].
  intros E. split; [done|]. split; [|done]. by eapply lookup_lt_Some.
Qed.

Lemma splice1_in_range {A : Type} (arr : list A) (i : nat) :
  i < length arr -> splice1 (Z.of_nat i) arr = delete i arr.
Proof.
  intros Hi. unfold splice1.
  destruct (Z.ltb_spec (Z.of_nat i) 0); [lia|].
  rewrite Z.min_l by lia. by rewrite Nat2Z.id.
Qed.

(** ** Anchor drag in the current application *)


Example handlePivotDrag_hit_wall :
  let p := Annotation.mkProps [0; 0; 0]%float (str "Annotation") 0 false in
  let h := Annotation.set_pivotRef (Some (node (v3 0 0 0))) (Annotation.init p) in
  let r := Annotation.handlePivotDrag {[ 0 := wall ]} (root 1 2) p h in
  Annotation.positionRef r.1.2 = [1; 2; 3.05]%float /\
  position <$> Annotation.pivotRef r.2 = Some (v3 1 2 3.05).
Proof. by vm_compute. Qed.

(** ** Anchor drag in the earlier copy *)

(** What [Portfolio.handleDrag] does on a hit: the handle is moved to the
    offset point, the stored anchor to the hit itself. *)
Lemma portfolio_handleDrag_hit (refs : gmap nat Group) (st : RootState)
    (p : Portfolio.Props) (h : Portfolio.Hooks)
    (pivot : Object3D) (model : Group) (i : Intersection)
    (rest : list Intersection) :
  Portfolio.pivotRef h = Some pivot ->
  refs !! Portfolio.modelRef p = Some model ->
  intersectObject (setFromCamera st) model = i :: rest ->
  let r := Portfolio.handleDrag refs st p h in
  Portfolio.positionRef r.1.2 = toArray (point i) /\
  Portfolio.pivotRef r.2 =
    Some (set_position (add (point i) (multiplyScalar (normal i) 0.01)) pivot).
Proof.
  intros Hpivot Hmodel Hhit. unfold Portfolio.handleDrag.
  rewrite Hpivot, Hmodel, Hhit. by rewrite copy_r.
Qed.

(** C1 (the earlier copy departs from it).  The claim: on a drag event whose
    ray hits the bound model, both the position of the handle and the stored
    anchor become the nearest hit offset by epsilon along its normal.
    Evaluated on a drag over the plane [z = 3] (normal [(0,0,1)]) with the
    pointer at [(1,2)]: [Portfolio.handleDrag] moves the handle to
    [(1,2,3.01)], the hit offset by its epsilon 0.01, but stores the hit
    [(1,2,3)] itself as the anchor, so that the stored anchor is not the
    offset point. *)
Theorem portfolio_handleDrag_stores_raw_hit :
  let p := Portfolio.mkProps [0; 0; 0]%float "Annotation" 0 in
  let h :=
    Portfolio.mkHooks false "Annotation" (Some (node (v3 0 0 0)))
      (Some (node (v3 0.5 0 0.5))) (Some (mkLine false)) (Float32Array_new 6) in
  let r := Portfolio.handleDrag {[ 0 := wall ]} (root 1 2) p h in
  let offsetPoint := add (v3 1 2 3) (multiplyScalar (v3 0 0 1) 0.01) in
  intersectObject (setFromCamera (root 1 2)) wall =
    [ mkIntersection (v3 1 2 3) (v3 0 0 1) ] /\
  position <$> Portfolio.pivotRef r.2 = Some offsetPoint /\
  Portfolio.positionRef r.1.2 = [1; 2; 3]%float /\
  Portfolio.positionRef r.1.2 <> toArray offsetPoint.
Proof.
  cbv zeta. split; [by vm_compute|]. split; [by vm_compute|].
  split; [by vm_compute|].
  by apply (numbers_neq_at 2).
Qed.

(** ** A drag that misses *)

(** C2.  A drag event on the anchor handle whose ray misses the bound model,
    or whose model ref is stale, completes normally and leaves the record of
    the annotation (anchor, content, model ref, kind) and the hooks of the
    component (the handle included) exactly as they were, in the current
    application ([Annotation.handlePivotDrag]) and in the earlier copy
    ([Portfolio.handleDrag]). *)
Theorem drag_miss_is_noop (refs : gmap nat Group) (st : RootState)
    (p : Annotation.Props) (h : Annotation.Hooks)
    (p' : Portfolio.Props) (h' : Portfolio.Hooks) :
  missed refs st (Annotation.modelRef p) ->
  missed refs st (Portfolio.modelRef p') ->
  ((Annotation.handlePivotDrag refs st p h).1.2 = p /\
   (Annotation.handlePivotDrag refs st p h).2 = h) /\
  ((Portfolio.handleDrag refs st p' h').1.2 = p' /\
   (Portfolio.handleDrag refs st p' h').2 = h').
Proof.
  unfold missed, Annotation.handlePivotDrag, Portfolio.handleDrag.
  intros Hm Hm'. split.
  - destruct (Annotation.pivotRef h); [|done].
    destruct (refs !! Annotation.modelRef p); [|done]. by rewrite Hm.
  - destruct (Portfolio.pivotRef h'); [|done].
    destruct (refs !! Portfolio.modelRef p'); [|done]. by rewrite Hm'.
Qed.

Lemma drag_miss_is_noop_witness :
  let p := Annotation.mkProps [1; 2; 3.05]%float (str "Annotation") 0 false in
  let h := Annotation.set_pivotRef (Some (node (v3 1 2 3.05))) (Annotation.init p) in
  let p' := Portfolio.mkProps [1; 2; 3]%float "Annotation" 1 in
  let h' :=
    Portfolio.mkHooks false "Annotation" (Some (node (v3 1 2 3.01))) None None
      (Float32Array_new 6) in
  let refs : gmap nat Group := {[ 0 := nothing ]} in
  ((Annotation.handlePivotDrag refs (root 9 9) p h).1.2 = p /\
   (Annotation.handlePivotDrag refs (root 9 9) p h).2 = h) /\
  ((Portfolio.handleDrag refs (root 9 9) p' h').1.2 = p' /\
   (Portfolio.handleDrag refs (root 9 9) p' h').2 = h').
Proof.
  cbv zeta. apply drag_miss_is_noop.
  - vm_compute. reflexivity.
  - vm_compute. exact I.
Defined.

(** ** The connector *)

(** C3, as stated, fails: the endpoints are not always equal to the world
    positions.  The handle sits at [(1,2,3.05)], where the drag over the plane
    [z = 3] left it, the content panel at [(6,2,8.05)], everything is mounted;
    after the frame the first endpoint is [(1,2,3.049999952316284)]: the
    buffer of the line is a [Float32Array], and 3.05 is not a binary32
    value. *)
Lemma useFrame_endpoint_rounded :
  let pivot := node (v3 1 2 3.05) in
  let contentMesh := node (v3 6 2 8.05) in
  let h :=
    Annotation.mkHooks false (str "Annotation") (Some pivot) (Some contentMesh)
      (Some (mkLine false)) [6; 2; 8.05]%float (Float32Array_new 6) in
  Annotation.lineStart (Annotation.useFrame h) =
    [1; 2; 3.0499999523162842]%float /\
  ~ (Annotation.lineStart (Annotation.useFrame h) =
       toArray (getWorldPosition pivot) /\
     Annotation.lineEnd (Annotation.useFrame h) =
       toArray (getWorldPosition contentMesh)).
Proof.
  cbv zeta. split; [by vm_compute|].
  intros [H _]. revert H. by apply (numbers_neq_at 2).
Qed.

(** C3, amended.  On a frame in which the anchor handle, the content panel
    and the line are all mounted, the six numbers of the line's buffer are
    written together and become the world position of the handle followed by
    the world position of the content panel, each coordinate rounded to
    binary32; if any of the three is not mounted, the frame callback changes
    nothing: no coordinate is written.  This holds for the current
    application and for the earlier copy. *)
Theorem useFrame_connector (h : Annotation.Hooks) (h' : Portfolio.Hooks) :
  length (Annotation.positions h) = 6 ->
  length (Portfolio.positions h') = 6 ->
  match Annotation.pivotRef h, Annotation.contentMeshRef h,
        Annotation.lineRef h with
  | Some pivot, Some contentMesh, Some _ =>
      Annotation.positions (Annotation.useFrame h) =
        fround <$> (toArray (getWorldPosition pivot) ++
                    toArray (getWorldPosition contentMesh))
  | _, _, _ => Annotation.useFrame h = h
  end /\
  match Portfolio.pivotRef h', Portfolio.textMeshRef h',
        Portfolio.lineRef h' with
  | Some pivot, Some textMesh, Some _ =>
      Portfolio.positions (Portfolio.useFrame h') =
        fround <$> (toArray (getWorldPosition pivot) ++
                    toArray (getWorldPosition textMesh))
  | _, _, _ => Portfolio.useFrame h' = h'
  end.
Proof.
  intros Hlen Hlen'. split.
  - unfold Annotation.useFrame.
    destruct (Annotation.pivotRef h), (Annotation.contentMeshRef h),
      (Annotation.lineRef h); try done.
    cbn [Annotation.positions].
    destruct (Annotation.positions h) as [|? [|? [|? [|? [|? [|? [|]]]]]]];
      by simplify_eq/=.
  - unfold Portfolio.useFrame.
    destruct (Portfolio.pivotRef h'), (Portfolio.textMeshRef h'),
      (Portfolio.lineRef h'); try done.
    cbn [Portfolio.positions].
    destruct (Portfolio.positions h') as [|? [|? [|? [|? [|? [|? [|]]]]]]];
      by simplify_eq/=.
Qed.

Lemma useFrame_connector_witness :
  let h :=
    Annotation.mkHooks false (str "Annotation") (Some (node (v3 1 2 3.05)))
      (Some (node (v3 6 2 8.05))) (Some (mkLine false)) [6; 2; 8.05]%float
      (Float32Array_new 6) in
  let h' :=
    Portfolio.mkHooks false "Annotation" (Some (node (v3 1 2 3.01))) None
      (Some (mkLine false)) (Float32Array_new 6) in
  Annotation.positions (Annotation.useFrame h) =
    [1; 2; 3.0499999523162842; 6; 2; 8.0500001907348633]%float /\
  Portfolio.useFrame h' = h'.
Proof.
  cbv zeta.
  exact (useFrame_connector
           (Annotation.mkHooks false (str "Annotation")
              (Some (node (v3 1 2 3.05))) (Some (node (v3 6 2 8.05)))
              (Some (mkLine false)) [6; 2; 8.05]%float (Float32Array_new 6))
           (Portfolio.mkHooks false "Annotation" (Some (node (v3 1 2 3.01)))
              None (Some (mkLine false)) (Float32Array_new 6))
           eq_refl eq_refl).
Defined.

(** ** Picking and finalizing *)

(** C4, as stated, fails: the anchor of the created record is not offset
    along the normal.  After a double click at [(1,2,3)] on a surface with
    normal [(0,0,1)] and [Add Text], the stored anchor is [[1; 2; 3]], which
    is neither the point offset by the epsilon of the drag handler (0.05) nor
    by the epsilon of the earlier copy (0.01). *)
Lemma created_anchor_not_offset :
  let s :=
    App.handleTextSelection
      (App.handleModelClick (v3 1 2 3) 0 (App.mountEffect App.init)) in
  let offsetBy eps := toArray (add (v3 1 2 3) (multiplyScalar (v3 0 0 1) eps)) in
  Annotation.positionRef <$> App.annotationsRef s = [ [1; 2; 3]%float ] /\
  Annotation.positionRef <$> App.annotationsRef s <>
    [ offsetBy Annotation.offsetDistance ] /\
  Annotation.positionRef <$> App.annotationsRef s <> [ offsetBy 0.01%float ].
Proof.
  cbv zeta. split; [by vm_compute|].
  split; vm_compute; intros H;
    apply (f_equal (fun l => default [] (l !! 0))) in H; simpl in H;
    revert H; by apply (numbers_neq_at 2).
Qed.

(** C4, amended.  After a double click at the surface point [(1,2,3)]
    followed by [Add Text], a store that was empty holds exactly one record:
    its anchor is the picked point [(1,2,3)] itself, its kind is Text, its
    content is the placeholder ["Annotation"], and it is bound to the model
    that was clicked; the panel is closed and the pending pick cleared. *)
Theorem pick_then_text_creates_record (s : App.State) (modelRef : RefId) :
  App.annotationsRef s = [] ->
  let s' := App.handleTextSelection (App.handleModelClick (v3 1 2 3) modelRef s) in
  App.annotationsRef s' =
    [ Annotation.mkProps [1; 2; 3]%float (str "Annotation") modelRef false ] /\
  App.annotationCount s' = 1 /\
  App.showSelectionPanel s' = false /\
  App.pendingPoint s' = None /\
  App.pendingModelRef s' = None.
Proof.
  intros Hempty. unfold App.handleTextSelection, App.handleModelClick.
  cbn. by rewrite Hempty.
Qed.

Lemma pick_then_text_creates_record_witness :
  let s' :=
    App.handleTextSelection
      (App.handleModelClick (v3 1 2 3) 0 (App.mountEffect App.init)) in
  App.annotationsRef s' =
    [ Annotation.mkProps [1; 2; 3]%float (str "Annotation") 0 false ] /\
  App.annotationCount s' = 1 /\
  App.showSelectionPanel s' = false /\
  App.pendingPoint s' = None /\
  App.pendingModelRef s' = None.
Proof.
  exact (pick_then_text_creates_record (App.mountEffect App.init) 0 eq_refl).
Defined.

(** C5.  The pending pick is a single slot: a double click while a pick is
    already pending completes normally, replaces the pending point and the
    pending model ref by those of the new click, leaves the store untouched,
    and leaves the very state that the new click alone would have left, so
    nothing of the earlier pick is kept or queued. *)
Theorem pending_pick_last_wins (s : App.State)
    (point1 point2 : Vector3) (modelRef1 modelRef2 : RefId) :
  let s1 := App.handleModelClick point1 modelRef1 s in
  let s2 := App.handleModelClick point2 modelRef2 s1 in
  (App.pendingPoint s1 = Some point1 /\ App.pendingModelRef s1 = Some modelRef1) /\
  (App.pendingPoint s2 = Some point2 /\ App.pendingModelRef s2 = Some modelRef2) /\
  App.showSelectionPanel s2 = true /\
  App.annotationsRef s2 = App.annotationsRef s /\
  s2 = App.handleModelClick point2 modelRef2 s /\
  App.annotationsRef (App.handleTextSelection s2) =
    App.annotationsRef s ++
    [ Annotation.mkProps (toArray point2) (str "Annotation") modelRef2 false ].
Proof. by repeat split. Qed.

(** C6, as stated, fails: cancelling does not clear the pending pick.  With a
    pick pending at [(1,2,3)], dismissing the image-file dialog without a file
    leaves the pending point, the pending model ref and the open panel as they
    were, and the [Cancel] button closes the panel but leaves the pending
    point and model ref set. *)
Lemma cancel_keeps_pending_pick :
  let s := App.handleModelClick (v3 1 2 3) 0 (App.mountEffect App.init) in
  let s1 := App.handleImageUpload string id None s in
  let s2 := App.cancelSelection s in
  ~ (App.pendingPoint s1 = None /\ App.pendingModelRef s1 = None) /\
  App.showSelectionPanel s1 = true /\
  ~ (App.pendingPoint s2 = None /\ App.pendingModelRef s2 = None).
Proof. cbv zeta. split; [|split]; [by intros [? _]|done|by intros [? _]]. Qed.

(** C6, amended.  Cancelling never appends a record: the [Cancel] button
    closes the selection panel and leaves the store as it was; dismissing the
    image-file dialog without choosing a file leaves the whole state as it
    was, the pending pick and the open panel included. *)
Theorem cancel_appends_nothing (File : Type) (createObjectURL : File -> string)
    (s : App.State) :
  (App.annotationsRef (App.cancelSelection s) = App.annotationsRef s /\
   App.showSelectionPanel (App.cancelSelection s) = false) /\
  App.handleImageUpload File createObjectURL None s = s.
Proof. done. Qed.

(** ** The Annotation Store *)

(** C7.  [handleDelete] at a valid index [i] removes the record at [i] and
    nothing else: the records below [i] keep their index, every record above
    [i] moves down by one, in the same order, and the store is one shorter;
    in particular a store holding [A] then [B] holds exactly [B], at index 0,
    after [handleDelete 0]. *)
Theorem handleDelete_reindexes (s : App.State) (i : nat) :
  i < length (App.annotationsRef s) ->
  let s' := App.handleDelete (Z.of_nat i) s in
  App.annotationsRef s' =
    take i (App.annotationsRef s) ++ drop (S i) (App.annotationsRef s) /\
  length (App.annotationsRef s') = length (App.annotationsRef s) - 1 /\
  (forall j, j < i -> App.annotationsRef s' !! j = App.annotationsRef s !! j) /\
  (forall j, i <= j ->
     App.annotationsRef s' !! j = App.annotationsRef s !! S j) /\
  (forall A B, App.annotationsRef s = [A; B] -> i = 0 ->
     App.annotationsRef s' = [B]).
Proof.
  intros Hi s'. subst s'. unfold App.handleDelete. cbn [App.annotationsRef].
  rewrite splice1_in_range by done. repeat split.
  - by rewrite delete_take_drop.
  - rewrite length_delete; [done|]. by apply lookup_lt_is_Some_2.
  - intros j Hj. by rewrite list_lookup_delete_lt.
  - intros j Hj. by rewrite list_lookup_delete_ge.
  - intros A B -> ->. done.
Qed.

Lemma handleDelete_reindexes_witness :
  let A := Annotation.mkProps [1; 2; 3]%float (str "Annotation") 0 false in
  let B := Annotation.mkProps [4; 5; 6]%float (str "blob:img") 0 true in
  let s := App.mkState (Some "/tshirt.glb") "cyan" [A; B] true false None None 2 in
  App.annotationsRef (App.handleDelete 0 s) = [B] /\
  App.annotationCount (App.handleDelete 0 s) = 1.
Proof.
  cbv zeta. split; [|reflexivity].
  refine (proj2 (proj2 (proj2 (proj2
    (handleDelete_reindexes
       (App.mkState (Some "/tshirt.glb") "cyan"
          [ Annotation.mkProps [1; 2; 3]%float (str "Annotation") 0 false;
            Annotation.mkProps [4; 5; 6]%float (str "blob:img") 0 true ]
          true false None None 2) 0 _)))) _ _ eq_refl eq_refl).
  simpl. lia.
Defined.

(** What [handleTypeChange] does at a valid index: it completes normally and
    rewrites the kind and the content of the record at that index, in place;
    the anchor and the model ref of the record, the other records and the
    rest of the state stay as they were. *)
Lemma handleTypeChange_at (s : App.State) (index : Z) (a : Annotation.Props)
    (isImage : bool) (newContent : option string) :
  at_index (App.annotationsRef s) index = Some a ->
  exists s',
    App.handleTypeChange index isImage newContent s = Normal s' /\
    App.annotationsRef s' =
      <[Z.to_nat index :=
          Annotation.mkProps (Annotation.positionRef a)
            (App.contentOrDefault isImage newContent)
            (Annotation.modelRef a) isImage]> (App.annotationsRef s) /\
    at_index (App.annotationsRef s') index =
      Some (Annotation.mkProps (Annotation.positionRef a)
              (App.contentOrDefault isImage newContent)
              (Annotation.modelRef a) isImage) /\
    length (App.annotationsRef s') = length (App.annotationsRef s) /\
    (forall j, j <> Z.to_nat index ->
       App.annotationsRef s' !! j = App.annotationsRef s !! j).
Proof.
  intros Ha. unfold App.handleTypeChange. rewrite Ha.
  destruct (at_index_Some _ _ _ Ha) as (Hpos & Hlt & Hlook).
  eexists. split; [reflexivity|]. cbn [App.annotationsRef].
  split; [done|]. split; [|split].
  - unfold at_index. destruct (Z.ltb_spec index 0); [lia|].
    by rewrite list_lookup_insert_eq.
  - by rewrite length_insert.
  - intros j Hj. by rewrite list_lookup_insert_ne.
Qed.

(** C8.  [handleTypeChange index false undefined] at a valid index, the
    switch to Text with no new content, completes normally and rewrites the
    record at [index] in place: its kind becomes Text and its content the
    placeholder ["Annotation"], which is neither [null] nor [undefined]; its
    anchor and model ref, the other records and the length of the store are
    unchanged. *)
Theorem handleTypeChange_text_placeholder (s : App.State) (index : Z)
    (a : Annotation.Props) :
  at_index (App.annotationsRef s) index = Some a ->
  exists s',
    App.handleTypeChange index false None s = Normal s' /\
    at_index (App.annotationsRef s') index =
      Some (Annotation.mkProps (Annotation.positionRef a) (str "Annotation")
              (Annotation.modelRef a) false) /\
    length (App.annotationsRef s') = length (App.annotationsRef s) /\
    (forall j, j <> Z.to_nat index ->
       App.annotationsRef s' !! j = App.annotationsRef s !! j).
Proof.
  intros Ha.
  destruct (handleTypeChange_at s index a false None Ha)
    as (s' & Hrun & _ & Hat & Hlen & Hother).
  by exists s'.
Qed.

Lemma handleTypeChange_text_placeholder_witness :
  let A := Annotation.mkProps [1; 2; 3]%float (str "img://foo") 0 true in
  let s := App.mkState (Some "/tshirt.glb") "cyan" [A] true false None None 1 in
  exists s',
    App.handleTypeChange 0 false None s = Normal s' /\
    at_index (App.annotationsRef s') 0 =
      Some (Annotation.mkProps [1; 2; 3]%float (str "Annotation") 0 false) /\
    length (App.annotationsRef s') = 1 /\
    (forall j, j <> 0 -> App.annotationsRef s' !! j = [A] !! j).
Proof.
  exact (handleTypeChange_text_placeholder
           (App.mkState (Some "/tshirt.glb") "cyan"
              [ Annotation.mkProps [1; 2; 3]%float (str "img://foo") 0 true ]
              true false None None 1)
           0 _ eq_refl).
Defined.

(** C9.  The missing-content test of [handleTypeChange] is a truthiness
    test: with no new content ([undefined]) or with the empty string as new
    content, at a valid index, the content of the record becomes [null] when
    the new kind is Image and the placeholder ["Annotation"] when it is Text.
    So a record's content can become [null], and an emptied text content
    reverts to the placeholder. *)
Theorem handleTypeChange_falsy_content (s : App.State) (index : Z)
    (a : Annotation.Props) (isImage : bool) (newContent : option string) :
  at_index (App.annotationsRef s) index = Some a ->
  newContent = None \/ newContent = Some EmptyString ->
  exists s',
    App.handleTypeChange index isImage newContent s = Normal s' /\
    at_index (App.annotationsRef s') index =
      Some (Annotation.mkProps (Annotation.positionRef a)
              (if isImage then null else str "Annotation")
              (Annotation.modelRef a) isImage).
Proof.
  intros Ha Hfalsy.
  destruct (handleTypeChange_at s index a isImage newContent Ha)
    as (s' & Hrun & _ & Hat & _).
  exists s'. split; [done|]. rewrite Hat.
  by destruct Hfalsy as [-> | ->].
Qed.

Lemma handleTypeChange_falsy_content_witness :
  let A := Annotation.mkProps [1; 2; 3]%float (str "hello") 0 false in
  let s := App.mkState (Some "/tshirt.glb") "cyan" [A] true false None None 1 in
  (exists s',
     App.handleTypeChange 0 true None s = Normal s' /\
     at_index (App.annotationsRef s') 0 =
       Some (Annotation.mkProps [1; 2; 3]%float null 0 true)) /\
  (exists s',
     App.handleTypeChange 0 false (Some EmptyString) s = Normal s' /\
     at_index (App.annotationsRef s') 0 =
       Some (Annotation.mkProps [1; 2; 3]%float (str "Annotation") 0 false)).
Proof.
  split.
  - exact (handleTypeChange_falsy_content
             (App.mkState (Some "/tshirt.glb") "cyan"
                [ Annotation.mkProps [1; 2; 3]%float (str "hello") 0 false ]
                true false None None 1)
             0 _ true None eq_refl (or_introl eq_refl)).
  - exact (handleTypeChange_falsy_content
             (App.mkState (Some "/tshirt.glb") "cyan"
                [ Annotation.mkProps [1; 2; 3]%float (str "hello") 0 false ]
                true false None None 1)
             0 _ false (Some EmptyString) eq_refl (or_intror eq_refl)).
Defined.

(** C10.  Without a pending pick, finalizing does nothing: if the pending
    point or the pending model ref is [null], [handleTextSelection] and
    [handleImageUpload], with or without a file, leave the whole state as it
    was; no record is appended and no record changes. *)
Theorem finalize_without_pending_pick (File : Type)
    (createObjectURL : File -> string) (s : App.State) (file : option File) :
  App.pendingPoint s = None \/ App.pendingModelRef s = None ->
  App.handleTextSelection s = s /\
  App.handleImageUpload File createObjectURL file s = s.
Proof.
  unfold App.handleTextSelection, App.handleImageUpload.
  intros [-> | ->]; split; try done.
  - by destruct file, (App.pendingModelRef s).
  - by destruct (App.pendingPoint s).
  - by destruct file.
Qed.

Lemma finalize_without_pending_pick_witness :
  let A := Annotation.mkProps [1; 2; 3]%float (str "Annotation") 0 false in
  let s := App.mkState (Some "/tshirt.glb") "cyan" [A] true false None None 1 in
  App.handleTextSelection s = s /\
  App.handleImageUpload string id (Some "blob:picked") s = s.
Proof.
  exact (finalize_without_pending_pick string id
           (App.mkState (Some "/tshirt.glb") "cyan"
              [ Annotation.mkProps [1; 2; 3]%float (str "Annotation") 0 false ]
              true false None None 1)
           (Some "blob:picked") (or_introl eq_refl)).
Defined.

(** * Further properties of the handlers *)

(** ** Drags of the current application *)

Lemma setFromCamera_idempotent (st : RootState) :
  setFromCamera (setFromCamera st) = setFromCamera st.
Proof. done. Qed.

(** X1.  A drag event on the anchor handle that is repeated with the pointer
    and the camera at rest changes nothing more: the second run of
    [handlePivotDrag] returns the state the first one left, whether the ray
    hits or misses. *)
Theorem handlePivotDrag_idempotent (refs : gmap nat Group) (st : RootState)
    (p : Annotation.Props) (h : Annotation.Hooks) :
  let r := Annotation.handlePivotDrag refs st p h in
  Annotation.handlePivotDrag refs r.1.1 r.1.2 r.2 = r.
Proof.
  cbv zeta. unfold Annotation.handlePivotDrag at 2 3 4 5.
  destruct (Annotation.pivotRef h) as [pivot|] eqn:Hpivot.
  2: { cbn [fst snd]. unfold Annotation.handlePivotDrag. by rewrite Hpivot. }
  destruct (refs !! Annotation.modelRef p) as [model|] eqn:Hmodel.
  2: { cbn [fst snd]. unfold Annotation.handlePivotDrag.
       by rewrite Hpivot, Hmodel. }
  destruct (intersectObject (setFromCamera st) model) as [|i rest] eqn:Hhit;
    cbn [fst snd]; unfold Annotation.handlePivotDrag.
  - by rewrite Hpivot, Hmodel, setFromCamera_idempotent, Hhit.
  - cbn [Annotation.set_pivotRef Annotation.pivotRef
      Annotation.set_positionRef Annotation.modelRef].
    by rewrite Hmodel, setFromCamera_idempotent, Hhit.
Qed.

(** X2.  The two drags of an annotation do not touch each other's state.  A
    drag of the anchor handle leaves the content, the kind and the model ref
    of the record, and the content panel (its node, its stored position), the
    line, its buffer and the editing flag as they were; a drag of the content
    panel leaves the anchor handle as it was; and the two drags can be run in
    either order with the same outcome. *)
Theorem drags_are_independent (refs : gmap nat Group) (st : RootState)
    (p : Annotation.Props) (h : Annotation.Hooks) :
  let r := Annotation.handlePivotDrag refs st p h in
  (Annotation.contentRef r.1.2 = Annotation.contentRef p /\
   Annotation.modelRef r.1.2 = Annotation.modelRef p /\
   Annotation.isImage r.1.2 = Annotation.isImage p) /\
  (Annotation.contentPositionRef r.2 = Annotation.contentPositionRef h /\
   Annotation.contentMeshRef r.2 = Annotation.contentMeshRef h /\
   Annotation.lineRef r.2 = Annotation.lineRef h /\
   Annotation.positions r.2 = Annotation.positions h /\
   Annotation.isEditing r.2 = Annotation.isEditing h /\
   Annotation.content r.2 = Annotation.content h) /\
  Annotation.pivotRef (Annotation.handleContentDrag h) = Annotation.pivotRef h /\
  Annotation.handlePivotDrag refs st p (Annotation.handleContentDrag h) =
    (r.1.1, r.1.2, Annotation.handleContentDrag r.2).
Proof.
  cbv zeta. unfold Annotation.handlePivotDrag, Annotation.handleContentDrag.
  destruct h as [e c pivot mesh line cp buf]. cbn.
  destruct pivot as [pivot|], mesh as [mesh|],
    (refs !! Annotation.modelRef p) as [model|]; cbn; try done;
    by destruct (intersectObject (setFromCamera st) model).
Qed.

(** X3.  The handle and the stored anchor stay in agreement: if the mounted
    handle sits at the stored anchor, it still does after a drag of the handle
    (hit or miss), after a drag of the content panel, after a frame and after
    a text change. *)
Theorem anchor_stays_on_handle (refs : gmap nat Group) (st : RootState)
    (p : Annotation.Props) (h : Annotation.Hooks) (value : string) :
  anchored p h ->
  anchored (Annotation.handlePivotDrag refs st p h).1.2
    (Annotation.handlePivotDrag refs st p h).2 /\
  anchored p (Annotation.handleContentDrag h) /\
  anchored p (Annotation.useFrame h) /\
  anchored (Annotation.handleTextChange value p h).1
    (Annotation.handleTextChange value p h).2.
Proof.
  unfold anchored, Annotation.handlePivotDrag, Annotation.handleContentDrag,
    Annotation.useFrame, Annotation.handleTextChange.
  destruct h as [e c pivot mesh line cp buf]. cbn.
  destruct pivot as [pivot|]; cbn.
  - intros Hp. repeat split.
    + destruct (refs !! Annotation.modelRef p) as [model|]; cbn; [|done].
      by destruct (intersectObject (setFromCamera st) model).
    + by destruct mesh.
    + by destruct mesh, line.
    + done.
  - intros _. repeat split; by destruct mesh.
Qed.

Lemma anchor_stays_on_handle_witness :
  anchored
    (Annotation.handlePivotDrag {[ 0 := wall ]} (root 1 2)
       (Annotation.mkProps [0; 0; 0]%float (str "Annotation") 0 false)
       (Annotation.set_pivotRef (Some (node (v3 0 0 0)))
          (Annotation.init
             (Annotation.mkProps [0; 0; 0]%float (str "Annotation") 0 false)))).1.2
    (Annotation.handlePivotDrag {[ 0 := wall ]} (root 1 2)
       (Annotation.mkProps [0; 0; 0]%float (str "Annotation") 0 false)
       (Annotation.set_pivotRef (Some (node (v3 0 0 0)))
          (Annotation.init
             (Annotation.mkProps [0; 0; 0]%float (str "Annotation") 0 false)))).2.
Proof.
  exact (proj1 (anchor_stays_on_handle {[ 0 := wall ]} (root 1 2)
                  (Annotation.mkProps [0; 0; 0]%float (str "Annotation") 0 false)
                  (Annotation.set_pivotRef (Some (node (v3 0 0 0)))
                     (Annotation.init
                        (Annotation.mkProps [0; 0; 0]%float (str "Annotation")
                           0 false)))
                  "note" eq_refl)).
Defined.

(** ** Frames *)

(** X4.  A frame run twice in a row, with nothing moving in between, leaves
    what the first run left; and a frame never changes the length of the
    line's buffer, nor any hook other than the buffer and the line.  This
    holds for the current application and for the earlier copy. *)
Theorem useFrame_idempotent (h : Annotation.Hooks) (h' : Portfolio.Hooks) :
  (Annotation.useFrame (Annotation.useFrame h) = Annotation.useFrame h /\
   length (Annotation.positions (Annotation.useFrame h)) =
     length (Annotation.positions h) /\
   Annotation.set_pivotRef (Annotation.pivotRef h) (Annotation.useFrame h) =
     Annotation.useFrame h /\
   Annotation.contentMeshRef (Annotation.useFrame h) =
     Annotation.contentMeshRef h /\
   Annotation.contentPositionRef (Annotation.useFrame h) =
     Annotation.contentPositionRef h /\
   Annotation.isEditing (Annotation.useFrame h) = Annotation.isEditing h /\
   Annotation.content (Annotation.useFrame h) = Annotation.content h) /\
  (Portfolio.useFrame (Portfolio.useFrame h') = Portfolio.useFrame h' /\
   length (Portfolio.positions (Portfolio.useFrame h')) =
     length (Portfolio.positions h') /\
   Portfolio.pivotRef (Portfolio.useFrame h') = Portfolio.pivotRef h' /\
   Portfolio.textMeshRef (Portfolio.useFrame h') = Portfolio.textMeshRef h' /\
   Portfolio.isEditing (Portfolio.useFrame h') = Portfolio.isEditing h' /\
   Portfolio.text (Portfolio.useFrame h') = Portfolio.text h').
Proof.
  split.
  - unfold Annotation.useFrame, Float32Array_store.
    destruct h as [e c [pivot|] [mesh|] [line|] cp buf]; cbn; try done.
    split; [|split; [|done]].
    + f_equal. by destruct buf as [|? [|? [|? [|? [|? [|? buf]]]]]].
    + by destruct buf as [|? [|? [|? [|? [|? [|? buf]]]]]].
  - unfold Portfolio.useFrame, Float32Array_store.
    destruct h' as [e c [pivot|] [mesh|] [line|] buf]; cbn; try done.
    split; [|split; [|done]].
    + f_equal. by destruct buf as [|? [|? [|? [|? [|? [|? buf]]]]]].
    + by destruct buf as [|? [|? [|? [|? [|? [|? buf]]]]]].
Qed.



(** ** Sessions of the current application *)

Section SessionFacts.

Context (File : Type) (createObjectURL : File -> string).

Lemma dispatch_invariant (e : Session.Event File) (s : App.State) :
  Session.Invariant s ->
  Session.Invariant (Session.dispatch File createObjectURL e s).
Proof.
  intros [Hc Hp Hpair [Hl Hu] Ha].
  destruct e as [file|value|pt r| |file| |index|index k c]; cbn.
  - destruct file; by constructor.
  - by constructor.
  - by constructor.
  - unfold App.handleTextSelection.
    destruct (App.pendingPoint s) as [pt|] eqn:E1,
      (App.pendingModelRef s) as [r|] eqn:E2;
      try by constructor; try by rewrite ?E1, ?E2.
    constructor; cbn; try done.
    apply Forall_app; split; [done|]. by repeat constructor.
  - unfold App.handleImageUpload.
    destruct file as [file|], (App.pendingModelRef s) as [r|] eqn:E2,
      (App.pendingPoint s) as [pt|] eqn:E1;
      try by constructor; try by rewrite ?E1, ?E2.
    constructor; cbn; try done.
    apply Forall_app; split; [done|]. by repeat constructor.
  - constructor; cbn; done.
  - constructor; cbn; try done. by apply Forall_delete.
  - unfold App.handleTypeChange.
    destruct (at_index (App.annotationsRef s) index) as [a|] eqn:E;
      [|by constructor].
    constructor; cbn; try done.
    apply at_index_Some in E as (_ & _ & E).
    apply Forall_insert; [done|]. cbn.
    by eapply (Forall_lookup_1 _ _ _ _ Ha E).
Qed.

Lemma foldl_dispatch_invariant (events : list (Session.Event File))
    (s : App.State) :
  Session.Invariant s ->
  Session.Invariant
    (foldl (fun s e => Session.dispatch File createObjectURL e s) s events).
Proof.
  revert s. induction events as [|e events IH]; intros s Hs; [done|].
  cbn. apply IH. by apply dispatch_invariant.
Qed.

Lemma mounted_invariant : Session.Invariant (App.mountEffect App.init).
Proof. by constructor. Qed.

Lemma run_snoc (events : list (Session.Event File)) (e : Session.Event File) :
  Session.run File createObjectURL (events ++ [e]) =
  Session.dispatch File createObjectURL e
    (Session.run File createObjectURL events).
Proof. unfold Session.run. by rewrite foldl_app. Qed.

(** X6.  Whatever the user does after the application has mounted (pick
    files, change the colour, double click the model, add text or an image,
    cancel, delete or change the kind of an annotation, at any index), the
    state keeps these invariants: the annotation count equals the number of
    stored records; the selection panel is open only while a pick is pending;
    the pending point and the pending model ref are set or cleared together;
    a model is always loaded; every stored anchor has three coordinates. *)
Theorem session_invariant (events : list (Session.Event File)) :
  Session.Invariant (Session.run File createObjectURL events).
Proof.
  unfold Session.run. apply foldl_dispatch_invariant, mounted_invariant.
Qed.

(** X7.  In a session, whenever the selection panel is open, [Add Text]
    creates an annotation: it appends exactly one Text record with the
    placeholder content, anchored at the pending point, and closes the
    panel. *)
Theorem open_panel_add_text_appends (events : list (Session.Event File)) :
  App.showSelectionPanel (Session.run File createObjectURL events) = true ->
  exists point modelRef,
    App.pendingPoint (Session.run File createObjectURL events) = Some point /\
    App.annotationsRef
      (Session.run File createObjectURL (events ++ [Session.AddText File])) =
      App.annotationsRef (Session.run File createObjectURL events) ++
      [ Annotation.mkProps (toArray point) (str "Annotation") modelRef false ] /\
    App.showSelectionPanel
      (Session.run File createObjectURL (events ++ [Session.AddText File])) =
      false.
Proof.
  intros Hopen. rewrite run_snoc.
  pose proof (foldl_dispatch_invariant events _ mounted_invariant) as Hinv.
  fold (Session.run File createObjectURL events) in Hinv.
  destruct (Session.panel_has_pick _ Hinv Hopen) as [[pt Hpt] [r Hr]].
  exists pt, r. split; [done|]. cbn. unfold App.handleTextSelection.
  by rewrite Hpt, Hr.
Qed.

(** X8.  Annotations are created by finalizations only: at any point of a
    session the number of stored records is at most the number of [Add Text]
    clicks and image files chosen so far, and a single event changes the
    number of records by at most one. *)
Theorem records_bounded_by_creations (events : list (Session.Event File))
    (e : Session.Event File) :
  length (App.annotationsRef (Session.run File createObjectURL events)) <=
    length (filter (fun e => Session.creates File e = true) events) /\
  length (App.annotationsRef (Session.run File createObjectURL (events ++ [e])))
    <= S (length (App.annotationsRef (Session.run File createObjectURL events)))
  /\
  length (App.annotationsRef (Session.run File createObjectURL events)) <=
    S (length (App.annotationsRef
                 (Session.run File createObjectURL (events ++ [e])))).
Proof.
  assert (Hstep : forall e s,
    length (App.annotationsRef (Session.dispatch File createObjectURL e s)) <=
      length (App.annotationsRef s) +
      (if Session.creates File e then 1 else 0) /\
    length (App.annotationsRef s) <=
      S (length (App.annotationsRef (Session.dispatch File createObjectURL e s)))).
  { intros e' s. destruct e' as [file|value|pt r| |file| |index|index k c]; cbn.
    - destruct file; cbn; lia.
    - lia.
    - lia.
    - unfold App.handleTextSelection.
      destruct (App.pendingPoint s), (App.pendingModelRef s); cbn;
        rewrite ?length_app; cbn; lia.
    - unfold App.handleImageUpload.
      destruct file, (App.pendingModelRef s), (App.pendingPoint s); cbn;
        rewrite ?length_app; cbn; lia.
    - lia.
    - unfold splice1.
      destruct (decide (Z.to_nat
        (if (index <? 0)%Z
         then Z.max (Z.of_nat (length (App.annotationsRef s)) + index) 0
         else Z.min index (Z.of_nat (length (App.annotationsRef s))))
          < length (App.annotationsRef s))) as [Hlt|Hge].
      + rewrite length_delete by by apply lookup_lt_is_Some_2. lia.
      + rewrite delete_take_drop, length_app, length_take, length_drop. lia.
    - unfold App.handleTypeChange.
      destruct (at_index (App.annotationsRef s) index); cbn;
        rewrite ?length_insert; lia. }
  split; [|rewrite run_snoc; destruct (Hstep e
             (Session.run File createObjectURL events)) as [H1 H2];
           split; [destruct (Session.creates File e); lia|lia]].
  unfold Session.run.
  assert (Hgen : forall s,
    length (App.annotationsRef
      (foldl (fun s e => Session.dispatch File createObjectURL e s) s events))
    <= length (App.annotationsRef s) +
       length (filter (fun e => Session.creates File e = true) events)).
  { induction events as [|e' events' IH]; intros s; [cbn; lia|].
    rewrite filter_cons. cbn [foldl]. etrans; [apply IH|].
    destruct (Hstep e' s) as [H1 _].
    destruct (Session.creates File e') eqn:Hc.
    - rewrite decide_True by done. cbn [length]. lia.
    - rewrite decide_False by done. lia. }
  specialize (Hgen (App.mountEffect App.init)). cbn in Hgen. lia.
Qed.

End SessionFacts.

Lemma open_panel_add_text_appends_witness :
  exists point modelRef,
    App.pendingPoint
      (Session.run string id [Session.ModelDoubleClick string (v3 1 2 3) 0]) =
      Some point /\
    App.annotationsRef
      (Session.run string id
         ([Session.ModelDoubleClick string (v3 1 2 3) 0] ++
          [Session.AddText string])) =
      App.annotationsRef
        (Session.run string id [Session.ModelDoubleClick string (v3 1 2 3) 0]) ++
      [ Annotation.mkProps (toArray point) (str "Annotation") modelRef false ] /\
    App.showSelectionPanel
      (Session.run string id
         ([Session.ModelDoubleClick string (v3 1 2 3) 0] ++
          [Session.AddText string])) = false.
Proof.
  exact (open_panel_add_text_appends string id
           [Session.ModelDoubleClick string (v3 1 2 3) 0] eq_refl).
Defined.

(** ** Finalizing a pending pick *)

(** X9.  With a pick pending, both finalizers append exactly one record at
    the end of the store: [Add Text] a Text record with the placeholder,
    choosing an image file an Image record holding the URL of the file, each
    anchored at the pending point and bound to the pending model.  Every
    record already stored keeps its index, the new record gets the old length
    as its index, the count follows, the panel is closed and the pick
    cleared. *)
Theorem finalize_appends_at_end (File : Type) (createObjectURL : File -> string)
    (s : App.State) (point : Vector3) (modelRef : RefId) (file : File) :
  App.pendingPoint s = Some point ->
  App.pendingModelRef s = Some modelRef ->
  let text := Annotation.mkProps (toArray point) (str "Annotation") modelRef false in
  let image :=
    Annotation.mkProps (toArray point) (str (createObjectURL file)) modelRef true in
  let finalized s' (a : Annotation.Props) :=
    App.annotationsRef s' = App.annotationsRef s ++ [a] /\
    (forall j b, App.annotationsRef s !! j = Some b ->
       App.annotationsRef s' !! j = Some b) /\
    App.annotationsRef s' !! length (App.annotationsRef s) = Some a /\
    App.annotationCount s' = S (length (App.annotationsRef s)) /\
    App.showSelectionPanel s' = false /\
    App.pendingPoint s' = None /\
    App.pendingModelRef s' = None in
  finalized (App.handleTextSelection s) text /\
  finalized (App.handleImageUpload File createObjectURL (Some file) s) image.
Proof.
  intros Hpt Hr. cbv zeta.
  unfold App.handleTextSelection, App.handleImageUpload.
  rewrite Hpt, Hr. cbn.
  assert (Happ : forall (l : list Annotation.Props) a,
    (forall j b, l !! j = Some b -> (l ++ [a]) !! j = Some b) /\
    (l ++ [a]) !! length l = Some a /\
    length (l ++ [a]) = S (length l)).
  { intros l a. split; [|split].
    - intros j b Hj. by apply lookup_app_l_Some.
    - by rewrite lookup_app_r, Nat.sub_diag.
    - rewrite length_app. cbn. lia. }
  split.
  - split; [reflexivity|].
    destruct (Happ (App.annotationsRef s)
      (Annotation.mkProps (toArray point) (str "Annotation") modelRef false))
      as (H1 & H2 & H3).
    by repeat split.
  - split; [reflexivity|].
    destruct (Happ (App.annotationsRef s)
      (Annotation.mkProps (toArray point) (str (createObjectURL file))
         modelRef true)) as (H1 & H2 & H3).
    by repeat split.
Qed.

Lemma finalize_appends_at_end_witness :
  App.annotationsRef
    (App.handleImageUpload string id (Some "blob:picture")
       (App.handleModelClick (v3 1 2 3) 0 (App.mountEffect App.init))) =
  [ Annotation.mkProps [1; 2; 3]%float (str "blob:picture") 0 true ].
Proof.
  exact (proj1 (proj2
    (finalize_appends_at_end string id
       (App.handleModelClick (v3 1 2 3) 0 (App.mountEffect App.init))
       (v3 1 2 3) 0 "blob:picture" eq_refl eq_refl))).
Defined.

(** X10.  Creating an annotation and deleting it at once restores the store:
    with a pick pending, [Add Text] followed by [handleDelete] at the index of
    the new record (the old length) leaves the records that were there, in
    order, and the count they had. *)
Theorem create_then_delete_restores (s : App.State) (point : Vector3)
    (modelRef : RefId) :
  App.pendingPoint s = Some point ->
  App.pendingModelRef s = Some modelRef ->
  let s' :=
    App.handleDelete (Z.of_nat (length (App.annotationsRef s)))
      (App.handleTextSelection s) in
  App.annotationsRef s' = App.annotationsRef s /\
  App.annotationCount s' = length (App.annotationsRef s).
Proof.
  intros Hpt Hr. cbv zeta. unfold App.handleTextSelection, App.handleDelete.
  rewrite Hpt, Hr. cbn.
  rewrite splice1_in_range by (rewrite length_app; cbn; lia).
  by rewrite !delete_middle, app_nil_r.
Qed.

Lemma create_then_delete_restores_witness :
  App.annotationsRef
    (App.handleDelete 0
       (App.handleTextSelection
          (App.handleModelClick (v3 1 2 3) 0 (App.mountEffect App.init)))) = [].
Proof.
  exact (proj1
    (create_then_delete_restores
       (App.handleModelClick (v3 1 2 3) 0 (App.mountEffect App.init))
       (v3 1 2 3) 0 eq_refl eq_refl)).
Defined.

(** ** The store at its bounds *)

(** X11.  [handleDelete] at an index at or past the end of the store removes
    nothing: every record stays where it is (in particular, deleting from an
    empty store leaves it empty), and the count is set to the unchanged
    length. *)
Theorem handleDelete_past_end (s : App.State) (k : nat) :
  let s' :=
    App.handleDelete (Z.of_nat (length (App.annotationsRef s) + k)) s in
  App.annotationsRef s' = App.annotationsRef s /\
  App.annotationCount s' = length (App.annotationsRef s).
Proof.
  cbv zeta. unfold App.handleDelete, splice1. cbn.
  destruct (Z.ltb_spec (Z.of_nat (length (App.annotationsRef s) + k)) 0);
    [lia|].
  rewrite Z.min_r by lia. rewrite Nat2Z.id.
  assert (delete (length (App.annotationsRef s)) (App.annotationsRef s) =
          App.annotationsRef s) as ->; [|done].
  rewrite delete_take_drop, take_ge, drop_ge by lia. by rewrite app_nil_r.
Qed.



(** X13.  [handleTypeChange] throws a [TypeError] exactly when its index is
    outside the store (negative, or at or past the length); inside the store
    it completes and leaves the length of the store as it was. *)
Theorem handleTypeChange_throws_iff (s : App.State) (index : Z)
    (isImage : bool) (newContent : option string) :
  (App.handleTypeChange index isImage newContent s = TypeError <->
   (index < 0 \/ Z.of_nat (length (App.annotationsRef s)) <= index)%Z) /\
  (forall s', App.handleTypeChange index isImage newContent s = Normal s' ->
     length (App.annotationsRef s') = length (App.annotationsRef s) /\
     App.annotationCount s' = length (App.annotationsRef s)).
Proof.
  unfold App.handleTypeChange, at_index.
  destruct (Z.ltb_spec index 0) as [Hneg|Hpos].
  { split; [split; [intros _; lia|done]|done]. }
  destruct (App.annotationsRef s !! Z.to_nat index) as [a|] eqn:E.
  - apply lookup_lt_Some in E. split.
    + split; [done|]. lia.
    + intros s' [= <-]. cbn. by rewrite length_insert.
  - apply lookup_ge_None in E. split; [|done].
    split; [intros _; lia|done].
Qed.

(** X14.  Two type changes at the same index: the later one wins.  Running
    [handleTypeChange] at an index after another [handleTypeChange] at that
    index gives exactly what the later call alone gives (the same state, or
    the same [TypeError]); in particular a call repeated changes nothing
    more. *)
Theorem handleTypeChange_last_wins (s : App.State) (index : Z)
    (isImage1 isImage2 : bool) (newContent1 newContent2 : option string) :
  and_then (App.handleTypeChange index isImage1 newContent1 s)
    (App.handleTypeChange index isImage2 newContent2) =
  App.handleTypeChange index isImage2 newContent2 s.
Proof.
  unfold App.handleTypeChange.
  destruct (at_index (App.annotationsRef s) index) as [a|] eqn:E; [|done].
  destruct (at_index_Some _ _ _ E) as (Hpos & Hlt & Hlook).
  cbn. unfold at_index. destruct (Z.ltb_spec index 0); [lia|].
  rewrite list_lookup_insert_eq by done. cbn.
  by rewrite list_insert_insert_eq, !length_insert.
Qed.

(** X15.  Type changes at two different indices do not interfere: run in
    either order they give the same state, or both orders throw. *)
Theorem handleTypeChange_commute (s : App.State) (i j : Z)
    (isImage1 isImage2 : bool) (newContent1 newContent2 : option string) :
  i <> j ->
  and_then (App.handleTypeChange i isImage1 newContent1 s)
    (App.handleTypeChange j isImage2 newContent2) =
  and_then (App.handleTypeChange j isImage2 newContent2 s)
    (App.handleTypeChange i isImage1 newContent1).
Proof.
  intros Hij. unfold App.handleTypeChange.
  destruct (at_index (App.annotationsRef s) i) as [a|] eqn:Ei,
    (at_index (App.annotationsRef s) j) as [b|] eqn:Ej; cbn.
  - destruct (at_index_Some _ _ _ Ei) as (Hi & Hil & Hia).
    destruct (at_index_Some _ _ _ Ej) as (Hj & Hjl & Hjb).
    assert (Z.to_nat i <> Z.to_nat j) by lia.
    unfold at_index. destruct (Z.ltb_spec i 0), (Z.ltb_spec j 0); try lia.
    rewrite !list_lookup_insert_ne, Hia, Hjb by done. cbn.
    rewrite !length_insert. by rewrite list_insert_insert_ne.
  - destruct (at_index_Some _ _ _ Ei) as (Hi & Hil & Hia).
    unfold at_index in *. destruct (Z.ltb_spec j 0); [done|].
    apply lookup_ge_None in Ej.
    rewrite (proj2 (lookup_ge_None _ _)); [done|]. by rewrite length_insert.
  - destruct (at_index_Some _ _ _ Ej) as (Hj & Hjl & Hjb).
    unfold at_index in *. destruct (Z.ltb_spec i 0); [done|].
    apply lookup_ge_None in Ei.
    rewrite (proj2 (lookup_ge_None _ _)); [done|]. by rewrite length_insert.
  - done.
Qed.

Lemma handleTypeChange_commute_witness :
  and_then
    (App.handleTypeChange 0 true (Some "blob:img")
       (App.mkState (Some "/tshirt.glb") "cyan"
          [ Annotation.mkProps [1; 2; 3]%float (str "Annotation") 0 false;
            Annotation.mkProps [4; 5; 6]%float (str "blob:img") 0 true ]
          true false None None 2))
    (App.handleTypeChange 1 false None) =
  and_then
    (App.handleTypeChange 1 false None
       (App.mkState (Some "/tshirt.glb") "cyan"
          [ Annotation.mkProps [1; 2; 3]%float (str "Annotation") 0 false;
            Annotation.mkProps [4; 5; 6]%float (str "blob:img") 0 true ]
          true false None None 2))
    (App.handleTypeChange 0 true (Some "blob:img")).
Proof.
  refine (handleTypeChange_commute
    (App.mkState (Some "/tshirt.glb") "cyan"
       [ Annotation.mkProps [1; 2; 3]%float (str "Annotation") 0 false;
         Annotation.mkProps [4; 5; 6]%float (str "blob:img") 0 true ]
       true false None None 2)
    0 1 true false (Some "blob:img") None _).
  lia.
Defined.

(** X16.  An index held across a deletion points to another record: after
    [handleDelete] at [i], a type change at an index [j] at or above [i]
    rewrites the record that was at [j + 1] before the deletion, and the
    outcome is the store in which that record was rewritten first and the
    record at [i] deleted afterwards. *)
Theorem stale_index_retargets (s : App.State) (i j : nat)
    (a : Annotation.Props) (isImage : bool) (newContent : option string) :
  i <= j ->
  App.annotationsRef s !! S j = Some a ->
  exists s1 s2,
    App.handleTypeChange (Z.of_nat j) isImage newContent
      (App.handleDelete (Z.of_nat i) s) = Normal s1 /\
    App.handleTypeChange (Z.of_nat (S j)) isImage newContent s = Normal s2 /\
    App.annotationsRef s1 !! j =
      Some (Annotation.mkProps (Annotation.positionRef a)
              (App.contentOrDefault isImage newContent)
              (Annotation.modelRef a) isImage) /\
    App.annotationsRef s1 = App.annotationsRef (App.handleDelete (Z.of_nat i) s2).
Proof.
  intros Hij Ha. pose proof (lookup_lt_Some _ _ _ Ha) as Hlt.
  unfold App.handleTypeChange, App.handleDelete. cbn [App.annotationsRef].
  rewrite splice1_in_range by lia. rewrite !at_index_nat.
  rewrite list_lookup_delete_ge, Ha by done. rewrite !Nat2Z.id.
  eexists _, _. split; [reflexivity|]. split; [reflexivity|].
  cbn [App.annotationsRef]. split.
  - rewrite list_lookup_insert_eq; [done|].
    rewrite length_delete by (apply lookup_lt_is_Some_2; lia). lia.
  - rewrite splice1_in_range by (rewrite length_insert; lia).
    apply list_eq. intros n.
    destruct (decide (n < i)) as [Hn|Hn].
    + rewrite list_lookup_delete_lt by done.
      rewrite !list_lookup_insert_ne by lia.
      by rewrite list_lookup_delete_lt.
    + rewrite (list_lookup_delete_ge _ i n) by lia.
      destruct (decide (n = j)) as [->|Hnj].
      * rewrite !list_lookup_insert_eq; [done|lia|].
        rewrite length_delete by (apply lookup_lt_is_Some_2; lia). lia.
      * rewrite !list_lookup_insert_ne by lia.
        by rewrite list_lookup_delete_ge by lia.
Qed.

Lemma stale_index_retargets_witness :
  exists s1 s2,
    App.handleTypeChange 0 false None
      (App.handleDelete 0
         (App.mkState (Some "/tshirt.glb") "cyan"
            [ Annotation.mkProps [1; 2; 3]%float (str "first") 0 false;
              Annotation.mkProps [4; 5; 6]%float (str "second") 0 false ]
            true false None None 2)) = Normal s1 /\
    App.handleTypeChange 1 false None
      (App.mkState (Some "/tshirt.glb") "cyan"
         [ Annotation.mkProps [1; 2; 3]%float (str "first") 0 false;
           Annotation.mkProps [4; 5; 6]%float (str "second") 0 false ]
         true false None None 2) = Normal s2 /\
    App.annotationsRef s1 !! 0 =
      Some (Annotation.mkProps [4; 5; 6]%float (str "Annotation") 0 false) /\
    App.annotationsRef s1 = App.annotationsRef (App.handleDelete 0 s2).
Proof.
  exact (stale_index_retargets
    (App.mkState (Some "/tshirt.glb") "cyan"
       [ Annotation.mkProps [1; 2; 3]%float (str "first") 0 false;
         Annotation.mkProps [4; 5; 6]%float (str "second") 0 false ]
       true false None None 2)
    0 0 _ false None (le_n 0) eq_refl).
Defined.

(** ** The earlier copy: clicks append at once *)

(** X17.  In the earlier copy there is no pending step: every double click
    on the model appends a record at once.  After any sequence of clicks the
    store holds the records it had, followed by one record per click, in
    click order, each anchored at the clicked point itself, holding the
    placeholder text and bound to the clicked model; and after at least one
    click the count equals the number of records. *)
Theorem portfolio_clicks_append (clicks : list (Vector3 * RefId))
    (s : Portfolio.State) :
  Portfolio.annotationsRef (portfolio_clicks clicks s) =
    Portfolio.annotationsRef s ++
    map (fun c => Portfolio.mkProps (toArray c.1) "Annotation" c.2) clicks /\
  match clicks with
  | [] => portfolio_clicks clicks s = s
  | _ :: _ =>
      Portfolio.annotationCount (portfolio_clicks clicks s) =
        length (Portfolio.annotationsRef s) + length clicks
  end.
Proof.
  assert (Hstore : forall clicks s,
    Portfolio.annotationsRef (portfolio_clicks clicks s) =
      Portfolio.annotationsRef s ++
      map (fun c => Portfolio.mkProps (toArray c.1) "Annotation" c.2) clicks).
  { clear. induction clicks as [|c clicks IH]; intros s; cbn.
    - by rewrite app_nil_r.
    - unfold portfolio_clicks in IH. rewrite IH. cbn. by rewrite <- app_assoc. }
  split; [apply Hstore|].
  destruct clicks as [|c clicks] using rev_ind; [done|].
  assert (Hlast :
    Portfolio.annotationCount (portfolio_clicks (clicks ++ [c]) s) =
      length (Portfolio.annotationsRef s) + length (clicks ++ [c])).
  { unfold portfolio_clicks. rewrite foldl_app. cbn.
    fold (portfolio_clicks clicks s). rewrite Hstore.
    rewrite !length_app, length_map. cbn. lia. }
  by destruct (clicks ++ [c]).
Qed.

(** ** The content panel *)


(** X19.  An editing session on a text annotation: [Edit] opens the input
    and disables the drag of the content panel; typing a value writes it to
    the content state and to the stored content at once; [Close] shows the
    typed text again, or the placeholder when the text was emptied (the
    stored content is then the empty string, not the placeholder), re-enables
    the drag, and offers [Edit] and [Delete].  The anchor, the model ref and
    the kind of the record are never touched. *)
Theorem edit_session (p : Annotation.Props) (h : Annotation.Hooks)
    (value : string) :
  Annotation.isImage p = false ->
  let h1 := AnnotationPanel.setIsEditing true h in
  let r := AnnotationPanel.onValueChange value p h1 in
  let h3 := AnnotationPanel.setIsEditing false r.2 in
  (AnnotationPanel.render p h1 =
     AnnotationPanel.InputPanel (Annotation.content h) /\
   AnnotationPanel.contentDragEnabled h1 = false /\
   AnnotationPanel.controls (AnnotationPanel.render p h1) =
     [AnnotationPanel.Close]) /\
  (AnnotationPanel.render r.1 r.2 = AnnotationPanel.InputPanel (str value) /\
   Annotation.contentRef r.1 = str value /\
   r = Annotation.handleTextChange value p h1) /\
  (AnnotationPanel.render r.1 h3 =
     AnnotationPanel.TextPanel
       (match value with EmptyString => "Annotation" | _ => value end) /\
   AnnotationPanel.contentDragEnabled h3 = true /\
   AnnotationPanel.controls (AnnotationPanel.render r.1 h3) =
     [AnnotationPanel.Edit; AnnotationPanel.Delete]) /\
  (Annotation.positionRef r.1 = Annotation.positionRef p /\
   Annotation.modelRef r.1 = Annotation.modelRef p /\
   Annotation.isImage r.1 = false /\
   Annotation.pivotRef h3 = Annotation.pivotRef h /\
   Annotation.contentPositionRef h3 = Annotation.contentPositionRef h).
Proof.
  intros Htext. cbv zeta.
  unfold AnnotationPanel.render, AnnotationPanel.onValueChange,
    AnnotationPanel.setIsEditing, Annotation.handleTextChange. cbn.
  rewrite Htext. by destruct value.
Qed.

Lemma edit_session_witness :
  AnnotationPanel.render
    (AnnotationPanel.onValueChange "Collar"
       (Annotation.mkProps [1; 2; 3]%float (str "Annotation") 0 false)
       (AnnotationPanel.setIsEditing true
          (Annotation.init
             (Annotation.mkProps [1; 2; 3]%float (str "Annotation") 0 false)))).1
    (AnnotationPanel.setIsEditing false
       (AnnotationPanel.onValueChange "Collar"
          (Annotation.mkProps [1; 2; 3]%float (str "Annotation") 0 false)
          (AnnotationPanel.setIsEditing true
             (Annotation.init
                (Annotation.mkProps [1; 2; 3]%float (str "Annotation") 0
                   false)))).2) =
  AnnotationPanel.TextPanel "Collar".
Proof.
  exact (proj1 (proj1 (proj2 (proj2
    (edit_session
       (Annotation.mkProps [1; 2; 3]%float (str "Annotation") 0 false)
       (Annotation.init
          (Annotation.mkProps [1; 2; 3]%float (str "Annotation") 0 false))
       "Collar" eq_refl))))).
Defined.



(** ** Colouring the model *)

(** Induction over a scene tree, with the property at hand for every child. *)
Lemma Node_children_ind (P : Model.Node -> Prop) :
  (forall kind children, Forall P children -> P (Model.mkNode kind children)) ->
  forall n, P n.
Proof.
  intros Hnode. fix IH 1. intros [kind children]. apply Hnode.
  induction children as [|child children IHc]; constructor; [apply IH|done].
Qed.

Lemma paint_paint (c1 c2 : string) (k : Model.Kind) :
  Model.paint c2 (Model.paint c1 k) = Model.paint c2 k.
Proof. by destruct k as [[[[c|]]|]|]. Qed.


Lemma traverse_paint_paint (c1 c2 : string) (n : Model.Node) :
  Model.traverse (Model.paint c2) (Model.traverse (Model.paint c1) n) =
  Model.traverse (Model.paint c2) n.
Proof.
  induction n as [kind children IH] using Node_children_ind. cbn.
  rewrite paint_paint. f_equal.
  induction IH as [|child children Hc _ IHc]; [done|]. cbn. by rewrite Hc, IHc.
Qed.


(** X22.  When the colour changes twice, the last colour wins: running the
    colour effect with one colour and then with another leaves the model as
    the second colour alone would; so running it again with the same colour
    changes nothing. *)
Theorem colorEffect_last_wins (c1 c2 : string)
    (groupRef : option Model.ModelGroup) :
  Model.colorEffect c2 (Model.colorEffect c1 groupRef) =
    Model.colorEffect c2 groupRef /\
  Model.colorEffect c1 (Model.colorEffect c1 groupRef) =
    Model.colorEffect c1 groupRef.
Proof.
  destruct groupRef as [g|]; [|done]. cbn.
  by rewrite !traverse_paint_paint.
Qed.
